(** * NilAway: explained booleans and the configuration analyzer

    A shallow embedding of two Go packages of NilAway:

    - [inference]: the [ExplainedBool] labels put on annotation sites,
      their value accessor [Val] and their renderer [String];
    - [config] (config/config.go): the [Config] struct, the scope
      predicates [IsPkgInScope] and [IsFileInScope], the flag set built by
      [newFlagSet] and the analyzer body [run].

    Go strings are byte sequences and are embedded as [string]; Go's [int]
    and [token.Pos] as [Z]; a pointer that the code tests against nil as an
    [option]; a panic as [None] in the result of the function that can
    raise it. *)

From Stdlib Require Import ZArith Ascii.
From stdpp Require Import gmap strings list.

Local Open Scope Z_scope.

(** ** The fragment of Go's standard library the two packages call *)

Module fmt.

(** [%!(EXTRA string=a, string=b)]: what [fmt] appends for operands
    that no verb consumed. *)
Fixpoint extra_operands (a : list string) : string :=
  match a with
  | [] => ""
  | [x] => "string=" +:+ x
  | x :: a' => "string=" +:+ x +:+ ", " +:+ extra_operands a'
  end.

Definition extra (a : list string) : string :=
  match a with
  | [] => ""
  | _ => "%!(EXTRA " +:+ extra_operands a +:+ ")"
  end.

(** [fmt.Sprintf] over string operands, for format strings made of
    literal text, [%s] and [%%] (the only directives that the [String]
    methods of package inference use).  A [%s] prints the next operand, or [%!s(MISSING)] when none
    is left; a [%] that ends the format prints [%!(NOVERB)]; any other
    verb letter is reported the way [fmt] reports a verb it does not
    define for strings.  Flags, widths and precisions are not
    interpreted. *)
Fixpoint Sprintf (format : string) (a : list string) : string :=
  match format with
  | EmptyString => extra a
  | String c rest =>
      if Ascii.eqb c "%" then
        match rest with
        | EmptyString => "%!(NOVERB)" +:+ extra a
        | String verb rest' =>
            if Ascii.eqb verb "%" then String "%" (Sprintf rest' a)
            else
              match a with
              | [] =>
                  "%!" +:+ String verb "(MISSING)" +:+ Sprintf rest' []
              | x :: a' =>
                  if Ascii.eqb verb "s" then x +:+ Sprintf rest' a'
                  else
                    "%!" +:+ String verb "(string=" +:+ x +:+ ")"
                    +:+ Sprintf rest' a'
              end
        end
      else String c (Sprintf rest a)
  end.

End fmt.

Module strings.

(** [strings.HasPrefix]:
    [len(s) >= len(prefix) && s[:len(prefix)] == prefix]. *)
Definition HasPrefix (s prefix : string) : bool :=
  (String.length prefix <=? String.length s)%nat
  && String.eqb (String.substring 0 (String.length prefix) s) prefix.

(** [strings.Split(s, sep)] for a separator of one byte: the pieces of
    [s] between the occurrences of [sep], in order; one more piece than
    there are separators, so [Split "" sep] is [[""]]. *)
Fixpoint Split (s : string) (sep : ascii) : list string :=
  match s with
  | EmptyString => [""]
  | String c s' =>
      if Ascii.eqb c sep then "" :: Split s' sep
      else
        match Split s' sep with
        | piece :: pieces => String c piece :: pieces
        | [] => [String c ""]
        end
  end.

End strings.

(** ** Package inference: explained booleans *)

Module inference.

(** Modelled from the spec: the declaration of [PrimitiveFullTrigger]
    is not among the sources.  A trigger is a producer and a consumer,
    each carrying a display representation; the two fields hold the
    text that [%s] prints for them. *)
Record PrimitiveFullTrigger : Type := {
  ProducerRepr : string;
  ConsumerRepr : string
}.

(** [type ExplainedTrue struct{}] and [type ExplainedFalse struct{}]:
    the empty structs embedded in every variant. *)
Inductive ExplainedTrue : Type := mkExplainedTrue.
Inductive ExplainedFalse : Type := mkExplainedFalse.

Definition ExplainedTrue_Val (_ : ExplainedTrue) : bool := true.
Definition ExplainedFalse_Val (_ : ExplainedFalse) : bool := false.

(** The interface [ExplainedBool], closed over the eight struct types
    that implement it.  Each constructor takes the struct's fields in
    declaration order, the embedded empty struct first.  The
    [DeeperExplanation] of a deep constraint is an [ExplainedBool] of
    either truth value, as its Go field is; it is the reason that the
    struct is documented to wrap, so the nil interface value, which is
    no explained boolean, is left out. *)
Inductive ExplainedBool : Type :=
| TrueBecauseShallowConstraint
    (embedded : ExplainedTrue) (ExternalAssertion : PrimitiveFullTrigger)
| FalseBecauseShallowConstraint
    (embedded : ExplainedFalse) (ExternalAssertion : PrimitiveFullTrigger)
| TrueBecauseDeepConstraint
    (embedded : ExplainedTrue) (InternalAssertion : PrimitiveFullTrigger)
    (DeeperExplanation : ExplainedBool)
| FalseBecauseDeepConstraint
    (embedded : ExplainedFalse) (InternalAssertion : PrimitiveFullTrigger)
    (DeeperExplanation : ExplainedBool)
| TrueBecauseAnnotation (embedded : ExplainedTrue)
| FalseBecauseAnnotation (embedded : ExplainedFalse)
| TrueBecauseMyopia (embedded : ExplainedTrue) (PkgName : string)
| FalseBecauseMyopia (embedded : ExplainedFalse) (PkgName : string).

(** [Val] is promoted from the embedded struct. *)
Definition Val (e : ExplainedBool) : bool :=
  match e with
  | TrueBecauseShallowConstraint t _ => ExplainedTrue_Val t
  | FalseBecauseShallowConstraint f _ => ExplainedFalse_Val f
  | TrueBecauseDeepConstraint t _ _ => ExplainedTrue_Val t
  | FalseBecauseDeepConstraint f _ _ => ExplainedFalse_Val f
  | TrueBecauseAnnotation t => ExplainedTrue_Val t
  | FalseBecauseAnnotation f => ExplainedFalse_Val f
  | TrueBecauseMyopia t _ => ExplainedTrue_Val t
  | FalseBecauseMyopia f _ => ExplainedFalse_Val f
  end.

Fixpoint String (e : ExplainedBool) : string :=
  match e with
  | TrueBecauseShallowConstraint _ ExternalAssertion =>
      fmt.Sprintf
        "NILABLE because it describes the value %s, and that value is %s, where it is NILABLE"
        [ConsumerRepr ExternalAssertion; ProducerRepr ExternalAssertion]
  | FalseBecauseShallowConstraint _ ExternalAssertion =>
      fmt.Sprintf
        "NONNIL because it describes the value %s, and that value is %s, where it must be NONNIL"
        [ProducerRepr ExternalAssertion; ConsumerRepr ExternalAssertion]
  | TrueBecauseDeepConstraint _ InternalAssertion DeeperExplanation =>
      fmt.Sprintf
        "NILABLE because it describes the value %s, and that value is %s, where it is %s"
        [ConsumerRepr InternalAssertion; ProducerRepr InternalAssertion;
         String DeeperExplanation]
  | FalseBecauseDeepConstraint _ InternalAssertion DeeperExplanation =>
      fmt.Sprintf
        "NONNIL because it describes the value %s, and that value is %s, where it must be %s"
        [ProducerRepr InternalAssertion; ConsumerRepr InternalAssertion;
         String DeeperExplanation]
  | TrueBecauseAnnotation _ => "NILABLE because it is annotated as so"
  | FalseBecauseAnnotation _ => "NONNIL because it is annotated as so"
  | TrueBecauseMyopia _ PkgName =>
      fmt.Sprintf
        "NILABLE because myopic annotation inference for package %s decided so"
        [PkgName]
  | FalseBecauseMyopia _ PkgName =>
      fmt.Sprintf
        "NONNIL because myopic annotation inference for package %s decided so"
        [PkgName]
  end.

(** *** Vocabulary of the specification *)

(** The four justification shapes of the data model. *)
Inductive Shape : Type :=
  ShallowConstraint | DeepConstraint | Annotation | Myopia.

(** [HasShape e s]: the struct type of [e] is the true or the false
    variant of shape [s]. *)
Inductive HasShape : ExplainedBool -> Shape -> Prop :=
| shape_true_shallow t a :
    HasShape (TrueBecauseShallowConstraint t a) ShallowConstraint
| shape_false_shallow f a :
    HasShape (FalseBecauseShallowConstraint f a) ShallowConstraint
| shape_true_deep t a d :
    HasShape (TrueBecauseDeepConstraint t a d) DeepConstraint
| shape_false_deep f a d :
    HasShape (FalseBecauseDeepConstraint f a d) DeepConstraint
| shape_true_annotation t : HasShape (TrueBecauseAnnotation t) Annotation
| shape_false_annotation f : HasShape (FalseBecauseAnnotation f) Annotation
| shape_true_myopia t p : HasShape (TrueBecauseMyopia t p) Myopia
| shape_false_myopia f p : HasShape (FalseBecauseMyopia f p) Myopia.

(** The explanation at the end of a chain of deep constraints. *)
Fixpoint leaf (e : ExplainedBool) : ExplainedBool :=
  match e with
  | TrueBecauseDeepConstraint _ _ d => leaf d
  | FalseBecauseDeepConstraint _ _ d => leaf d
  | _ => e
  end.

Definition isDeep (e : ExplainedBool) : bool :=
  match e with
  | TrueBecauseDeepConstraint _ _ _ => true
  | FalseBecauseDeepConstraint _ _ _ => true
  | _ => false
  end.

End inference.

(** ** The fragment of go/types, go/ast, flag and go/analysis that package
       config uses *)

Module types.

(** [types.Package]: a package is looked at through its import path
    only. *)
Record Package : Type := {
  path : string;
  name : string
}.

Definition Path (pkg : Package) : string := path pkg.

End types.

Module ast.

(** [ast.Comment]: the position of its opening slash and its text. *)
Record Comment : Type := {
  Slash : Z;
  Text : string
}.

(** [ast.CommentGroup]: [List []*Comment] with [len(List) > 0], kept
    as its first comment and the ones after it. *)
Record CommentGroup : Type := {
  List_first : Comment;
  List_rest : list Comment
}.

(** [func (g *CommentGroup) Pos() token.Pos { return g.List[0].Pos() }] *)
Definition CommentGroup_Pos (g : CommentGroup) : Z := Slash (List_first g).

Record Ident : Type := {
  NamePos : Z;
  IdentName : string
}.

Definition Ident_Pos (x : Ident) : Z := NamePos x.

(** [ast.File]: the package name and all the comment groups of the
    file. *)
Record File : Type := {
  Name : Ident;
  Comments : list CommentGroup
}.

End ast.

Module flag.

(** The three implementations of [flag.Value] that [FlagSet.Bool],
    [FlagSet.Int] and [FlagSet.String] create; each one is a
    [flag.Getter]. *)
Inductive Value : Type :=
| boolValue (b : bool)
| intValue (i : Z)
| stringValue (s : string).

(** Go's [any], for the dynamic types that [Get] returns. *)
Inductive any : Type :=
| any_bool (b : bool)
| any_int (i : Z)
| any_string (s : string).

Definition Get (v : Value) : any :=
  match v with
  | boolValue b => any_bool b
  | intValue i => any_int i
  | stringValue s => any_string s
  end.

(** The type assertions [x.(bool)], [x.(int)] and [x.(string)] in their
    two-result form: [None] is [ok == false]. *)
Definition assert_bool (x : any) : option bool :=
  match x with any_bool b => Some b | _ => None end.
Definition assert_int (x : any) : option Z :=
  match x with any_int i => Some i | _ => None end.
Definition assert_string (x : any) : option string :=
  match x with any_string s => Some s | _ => None end.

(** [flag.Flag], without [DefValue] (the default's text, which only
    usage messages read). *)
Record Flag : Type := {
  FlagName : string;
  FlagUsage : string;
  FlagValue : Value
}.

(** A [flag.FlagSet] is its map [formal] from names to flags. *)
Abbreviation FlagSet := (gmap string Flag).

Definition NewFlagSet : FlagSet := ∅.

(** [Var] registers a flag.  (Go panics when the name is taken; the
    names that [newFlagSet] registers are pairwise distinct.) *)
Definition Var (f : FlagSet) (value : Value) (name usage : string)
  : FlagSet :=
  <[name := {| FlagName := name; FlagUsage := usage; FlagValue := value |}]> f.

Definition Bool (f : FlagSet) (name : string) (value : bool)
  (usage : string) : FlagSet :=
  Var f (boolValue value) name usage.
Definition Int (f : FlagSet) (name : string) (value : Z)
  (usage : string) : FlagSet :=
  Var f (intValue value) name usage.
Definition String (f : FlagSet) (name : string) (value : string)
  (usage : string) : FlagSet :=
  Var f (stringValue value) name usage.

(** [Lookup] returns nil for a name that is not registered. *)
Definition Lookup (f : FlagSet) (name : string) : option Flag := f !! name.

Definition sameKind (v w : Value) : bool :=
  match v, w with
  | boolValue _, boolValue _ => true
  | intValue _, intValue _ => true
  | stringValue _, stringValue _ => true
  | _, _ => false
  end.

(** [func (f *FlagSet) Set(name, text)] hands the text to the flag's own [Value], which
    parses it by its kind and stores the result in place.  The model
    takes the parsed value in place of the text: a value of the flag's
    kind is stored; a value of another kind stands for a text that the
    flag's parser rejects, and like an unknown name it is an error
    ([None]). *)
Definition FlagSet_Set (f : FlagSet) (name : string) (value : Value)
  : option FlagSet :=
  match f !! name with
  | None => None
  | Some fl =>
      if sameKind (FlagValue fl) value
      then Some (<[name := {| FlagName := FlagName fl;
                              FlagUsage := FlagUsage fl;
                              FlagValue := value |}]> f)
      else None
  end.

(** Parsing a command line sets the flags it names from left to
    right and stops at the first error. *)
Fixpoint Parse (f : FlagSet) (arguments : list (string * Value))
  : option FlagSet :=
  match arguments with
  | [] => Some f
  | (name, value) :: rest =>
      match FlagSet_Set f name value with
      | Some f' => Parse f' rest
      | None => None
      end
  end.

End flag.

Module analysis.

(** [analysis.Analyzer], without its function and type fields. *)
Record Analyzer : Type := {
  Name : string;
  Doc : string;
  Flags : flag.FlagSet
}.

(** [analysis.Pass]: [run] reads nothing but the analyzer of the
    pass. *)
Record Pass : Type := {
  PassAnalyzer : Analyzer
}.

End analysis.

(** ** Package config *)

Module config.

Record Config : Type := {
  PrettyPrint : bool;
  GroupErrorMessages : bool;
  FuncAnalysisTimeout : Z;
  ExperimentalStructInitEnable : bool;
  ExperimentalAnonymousFuncEnable : bool;
  includePkgs : list string;
  excludePkgs : list string;
  excludeFileDocStrings : list string
}.

(** The assignments to one field of [conf] that [run] makes. *)
Definition set_PrettyPrint (v : bool) (c : Config) : Config :=
  {| PrettyPrint := v;
     GroupErrorMessages := GroupErrorMessages c;
     FuncAnalysisTimeout := FuncAnalysisTimeout c;
     ExperimentalStructInitEnable := ExperimentalStructInitEnable c;
     ExperimentalAnonymousFuncEnable := ExperimentalAnonymousFuncEnable c;
     includePkgs := includePkgs c;
     excludePkgs := excludePkgs c;
     excludeFileDocStrings := excludeFileDocStrings c |}.
Definition set_GroupErrorMessages (v : bool) (c : Config) : Config :=
  {| PrettyPrint := PrettyPrint c;
     GroupErrorMessages := v;
     FuncAnalysisTimeout := FuncAnalysisTimeout c;
     ExperimentalStructInitEnable := ExperimentalStructInitEnable c;
     ExperimentalAnonymousFuncEnable := ExperimentalAnonymousFuncEnable c;
     includePkgs := includePkgs c;
     excludePkgs := excludePkgs c;
     excludeFileDocStrings := excludeFileDocStrings c |}.
Definition set_FuncAnalysisTimeout (v : Z) (c : Config) : Config :=
  {| PrettyPrint := PrettyPrint c;
     GroupErrorMessages := GroupErrorMessages c;
     FuncAnalysisTimeout := v;
     ExperimentalStructInitEnable := ExperimentalStructInitEnable c;
     ExperimentalAnonymousFuncEnable := ExperimentalAnonymousFuncEnable c;
     includePkgs := includePkgs c;
     excludePkgs := excludePkgs c;
     excludeFileDocStrings := excludeFileDocStrings c |}.
Definition set_ExperimentalStructInitEnable (v : bool) (c : Config)
  : Config :=
  {| PrettyPrint := PrettyPrint c;
     GroupErrorMessages := GroupErrorMessages c;
     FuncAnalysisTimeout := FuncAnalysisTimeout c;
     ExperimentalStructInitEnable := v;
     ExperimentalAnonymousFuncEnable := ExperimentalAnonymousFuncEnable c;
     includePkgs := includePkgs c;
     excludePkgs := excludePkgs c;
     excludeFileDocStrings := excludeFileDocStrings c |}.
Definition set_ExperimentalAnonymousFuncEnable (v : bool) (c : Config)
  : Config :=
  {| PrettyPrint := PrettyPrint c;
     GroupErrorMessages := GroupErrorMessages c;
     FuncAnalysisTimeout := FuncAnalysisTimeout c;
     ExperimentalStructInitEnable := ExperimentalStructInitEnable c;
     ExperimentalAnonymousFuncEnable := v;
     includePkgs := includePkgs c;
     excludePkgs := excludePkgs c;
     excludeFileDocStrings := excludeFileDocStrings c |}.
Definition set_includePkgs (v : list string) (c : Config) : Config :=
  {| PrettyPrint := PrettyPrint c;
     GroupErrorMessages := GroupErrorMessages c;
     FuncAnalysisTimeout := FuncAnalysisTimeout c;
     ExperimentalStructInitEnable := ExperimentalStructInitEnable c;
     ExperimentalAnonymousFuncEnable := ExperimentalAnonymousFuncEnable c;
     includePkgs := v;
     excludePkgs := excludePkgs c;
     excludeFileDocStrings := excludeFileDocStrings c |}.
Definition set_excludePkgs (v : list string) (c : Config) : Config :=
  {| PrettyPrint := PrettyPrint c;
     GroupErrorMessages := GroupErrorMessages c;
     FuncAnalysisTimeout := FuncAnalysisTimeout c;
     ExperimentalStructInitEnable := ExperimentalStructInitEnable c;
     ExperimentalAnonymousFuncEnable := ExperimentalAnonymousFuncEnable c;
     includePkgs := includePkgs c;
     excludePkgs := v;
     excludeFileDocStrings := excludeFileDocStrings c |}.
Definition set_excludeFileDocStrings (v : list string) (c : Config)
  : Config :=
  {| PrettyPrint := PrettyPrint c;
     GroupErrorMessages := GroupErrorMessages c;
     FuncAnalysisTimeout := FuncAnalysisTimeout c;
     ExperimentalStructInitEnable := ExperimentalStructInitEnable c;
     ExperimentalAnonymousFuncEnable := ExperimentalAnonymousFuncEnable c;
     includePkgs := includePkgs c;
     excludePkgs := excludePkgs c;
     excludeFileDocStrings := v |}.

(** *** IsPkgInScope *)

(** The inner loop over [c.excludePkgs] and the [return true] after
    it. *)
Fixpoint rangeExcludePkgs (pkgPath : string) (excludes : list string)
  : bool :=
  match excludes with
  | [] => true
  | exclude :: rest =>
      if strings.HasPrefix pkgPath exclude then false
      else rangeExcludePkgs pkgPath rest
  end.

(** The outer loop over [c.includePkgs] and the [return false] after
    it.  The first include that is a prefix of the path decides. *)
Fixpoint rangeIncludePkgs (pkgPath : string)
  (includes excludes : list string) : bool :=
  match includes with
  | [] => false
  | include :: rest =>
      if negb (strings.HasPrefix pkgPath include)
      then rangeIncludePkgs pkgPath rest excludes
      else rangeExcludePkgs pkgPath excludes
  end.

Definition IsPkgInScope (c : Config) (pkg : option types.Package) : bool :=
  match pkg with
  | None => false
  | Some pkg =>
      rangeIncludePkgs (types.Path pkg) (includePkgs c) (excludePkgs c)
  end.

(** *** IsFileInScope *)

Section IsFileInScope.

(** [asthelper.DocContains(comment, s)] lives in another package of
    the repository; [IsFileInScope] is embedded over any such
    test. *)
Variable DocContains : ast.CommentGroup -> string -> bool.

(** The loop over [c.excludeFileDocStrings] for one comment group:
    [true] when it reaches its [return false]. *)
Fixpoint rangeExcludeFileDocStrings (comment : ast.CommentGroup)
  (excludes : list string) : bool :=
  match excludes with
  | [] => false
  | exclude :: rest =>
      if DocContains comment exclude then true
      else rangeExcludeFileDocStrings comment rest
  end.

(** The loop over [file.Comments] and the [return true] after it. *)
Fixpoint rangeComments (namePos : Z) (comments : list ast.CommentGroup)
  (excludes : list string) : bool :=
  match comments with
  | [] => true
  | comment :: rest =>
      if ast.CommentGroup_Pos comment >? namePos
      then rangeComments namePos rest excludes
      else if rangeExcludeFileDocStrings comment excludes then false
      else rangeComments namePos rest excludes
  end.

Definition IsFileInScope (c : Config) (file : ast.File) : bool :=
  if (List.length (excludeFileDocStrings c) =? 0)%nat then true
  else rangeComments (ast.Ident_Pos (ast.Name file)) (ast.Comments file)
         (excludeFileDocStrings c).

End IsFileInScope.

(** *** The analyzer and its flags *)

Definition _doc : string :=
"nilaway_config analyzer is responsible to take configurations (flags) for NilAway execution.
It does not run any analysis and is only meant to be used as a dependency for the sub-analyzers of 
NilAway to share the same configurations. 
".

Definition PrettyPrintFlag : string := "pretty-print".
Definition GroupErrorMessagesFlag : string := "group-error-messages".
Definition FuncAnalysisTimeoutFlag : string :=
  "func-analysis-timeout-in-sec".
Definition IncludePkgsFlag : string := "include-pkgs".
Definition ExcludePkgsFlag : string := "exclude-pkgs".
Definition ExcludeFileDocStringsFlag : string := "exclude-file-docstrings".
Definition ExperimentalStructInitEnableFlag : string :=
  "experimental-struct-init".
Definition ExperimentalAnonymousFunctionFlag : string :=
  "experimental-anonymous-function".

Definition newFlagSet : flag.FlagSet :=
  let fs := flag.NewFlagSet in
  let fs := flag.Bool fs PrettyPrintFlag true
              "Pretty print the error messages" in
  let fs := flag.Bool fs GroupErrorMessagesFlag true
              "Group similar error messages" in
  let fs := flag.Int fs FuncAnalysisTimeoutFlag 1
              "Timeout (in sec) for analyzing each function" in
  let fs := flag.String fs IncludePkgsFlag ""
              "Comma-separated list of packages to analyze" in
  let fs := flag.String fs ExcludePkgsFlag ""
              "Comma-separated list of packages to exclude from analysis" in
  let fs := flag.String fs ExcludeFileDocStringsFlag ""
              "Comma-separated list of docstrings to exclude from analysis" in
  let fs := flag.Bool fs ExperimentalStructInitEnableFlag false
              "Whether to enable experimental struct initialization support" in
  let fs := flag.Bool fs ExperimentalAnonymousFunctionFlag false
              "Whether to enable experimental anonymous function support" in
  fs.

Definition Analyzer : analysis.Analyzer :=
  {| analysis.Name := "nilaway_config";
     analysis.Doc := _doc;
     analysis.Flags := newFlagSet |}.

(** An [error] is its message; [run] never builds one. *)
Definition error : Type := string.

(** [pass.Analyzer.Flags.Lookup(name).Value.(flag.Getter).Get()]:
    selecting [Value] through the nil pointer that [Lookup] returns
    for an unregistered name panics. *)
Definition lookupGet (pass : analysis.Pass) (name : string)
  : option flag.any :=
  fl ← flag.Lookup (analysis.Flags (analysis.PassAnalyzer pass)) name;
  Some (flag.Get (flag.FlagValue fl)).

(** [run] returns the pointer [conf] (never nil) and a nil error; the
    result is [None] when it panics. *)
Definition run (pass : analysis.Pass)
  : option (option Config * option error) :=
  let conf :=
    {| PrettyPrint := true;
       GroupErrorMessages := true;
       FuncAnalysisTimeout := 0;
       ExperimentalStructInitEnable := false;
       ExperimentalAnonymousFuncEnable := false;
       includePkgs := [""];
       excludePkgs := [];
       excludeFileDocStrings := [] |} in
  x ← lookupGet pass PrettyPrintFlag;
  let conf :=
    match flag.assert_bool x with
    | Some prettyPrint => set_PrettyPrint prettyPrint conf
    | None => conf
    end in
  x ← lookupGet pass GroupErrorMessagesFlag;
  let conf :=
    match flag.assert_bool x with
    | Some groupErrorMessages =>
        set_GroupErrorMessages groupErrorMessages conf
    | None => conf
    end in
  x ← lookupGet pass FuncAnalysisTimeoutFlag;
  let conf :=
    match flag.assert_int x with
    | Some funcAnalysisTimeout =>
        set_FuncAnalysisTimeout funcAnalysisTimeout conf
    | None => conf
    end in
  x ← lookupGet pass ExperimentalStructInitEnableFlag;
  let conf :=
    match flag.assert_bool x with
    | Some enableStructInit =>
        set_ExperimentalStructInitEnable enableStructInit conf
    | None => conf
    end in
  x ← lookupGet pass ExperimentalAnonymousFunctionFlag;
  let conf :=
    match flag.assert_bool x with
    | Some enableAnonymousFunc =>
        set_ExperimentalAnonymousFuncEnable enableAnonymousFunc conf
    | None => conf
    end in
  x ← lookupGet pass IncludePkgsFlag;
  let conf :=
    match flag.assert_string x with
    | Some include =>
        if negb (String.eqb include "")
        then set_includePkgs (strings.Split include ",") conf
        else conf
    | None => conf
    end in
  x ← lookupGet pass ExcludePkgsFlag;
  let conf :=
    match flag.assert_string x with
    | Some exclude =>
        if negb (String.eqb exclude "")
        then set_excludePkgs (strings.Split exclude ",") conf
        else conf
    | None => conf
    end in
  x ← lookupGet pass ExcludeFileDocStringsFlag;
  let conf :=
    match flag.assert_string x with
    | Some docstrings =>
        if negb (String.eqb docstrings "")
        then set_excludeFileDocStrings (strings.Split docstrings ",") conf
        else conf
    | None => conf
    end in
  Some (Some conf, None).

(** *** Vocabulary of the specification *)

(** The passes a driver runs the analyzer on: the analyzer of the pass
    is [Analyzer], with its flags as the command line left them. *)
Definition passOf (arguments : list (string * flag.Value))
  : option analysis.Pass :=
  match flag.Parse (analysis.Flags Analyzer) arguments with
  | Some flags =>
      Some {| analysis.PassAnalyzer :=
                {| analysis.Name := analysis.Name Analyzer;
                   analysis.Doc := analysis.Doc Analyzer;
                   analysis.Flags := flags |} |}
  | None => None
  end.

(** The primitive knobs of a [Config], each under the name of its
    flag and as a value of that flag's kind. *)
Definition knobs (c : Config) : list (string * flag.Value) :=
  [ (PrettyPrintFlag, flag.boolValue (PrettyPrint c));
    (GroupErrorMessagesFlag, flag.boolValue (GroupErrorMessages c));
    (FuncAnalysisTimeoutFlag, flag.intValue (FuncAnalysisTimeout c));
    (ExperimentalStructInitEnableFlag,
      flag.boolValue (ExperimentalStructInitEnable c));
    (ExperimentalAnonymousFunctionFlag,
      flag.boolValue (ExperimentalAnonymousFuncEnable c)) ].

(** A toggle or a number, as opposed to a comma-separated list. *)
Definition isPrimitive (v : flag.Value) : bool :=
  match v with
  | flag.boolValue _ | flag.intValue _ => true
  | flag.stringValue _ => false
  end.

(** The value a flag currently holds. *)
Definition valueOf (f : flag.FlagSet) (name : string)
  : option flag.Value :=
  flag.FlagValue <$> flag.Lookup f name.

(** What [run] builds from the values of the eight flags. *)
Definition configOf (prettyPrint groupErrorMessages : bool)
  (funcAnalysisTimeout : Z) (enableStructInit enableAnonymousFunc : bool)
  (include exclude docstrings : string) : Config :=
  {| PrettyPrint := prettyPrint;
     GroupErrorMessages := groupErrorMessages;
     FuncAnalysisTimeout := funcAnalysisTimeout;
     ExperimentalStructInitEnable := enableStructInit;
     ExperimentalAnonymousFuncEnable := enableAnonymousFunc;
     includePkgs :=
       if String.eqb include "" then [""] else strings.Split include ",";
     excludePkgs :=
       if String.eqb exclude "" then [] else strings.Split exclude ",";
     excludeFileDocStrings :=
       if String.eqb docstrings "" then []
       else strings.Split docstrings "," |}.

(** [s] starts with [p]. *)
Definition prefixOf (p s : string) : Prop := exists rest, s = p +:+ rest.

End config.

(** * Properties *)

(** ** Strings *)

Section string_facts.

Lemma append_empty_r (s : string) : s +:+ "" = s.
Proof.
  induction s as [|c s IH]; [done | exact (f_equal (String c) IH)].
Qed.

Lemma append_empty_l (s : string) : "" +:+ s = s.
Proof. reflexivity. Qed.

Lemma append_assoc (s1 s2 s3 : string) :
  (s1 +:+ s2) +:+ s3 = s1 +:+ (s2 +:+ s3).
Proof.
  induction s1 as [|c s1 IH]; [done | exact (f_equal (String c) IH)].
Qed.

Lemma substring_0_0 (s : string) : String.substring 0 0 s = "".
Proof. by destruct s. Qed.

(** [HasPrefix] decides "starts with". *)
Lemma HasPrefix_prefixOf (p s : string) :
  strings.HasPrefix s p = true <-> config.prefixOf p s.
Proof.
  unfold config.prefixOf, strings.HasPrefix.
  revert s. induction p as [|a p IH]; intros s.
  - simpl. rewrite substring_0_0. simpl. split; [eauto | done].
  - destruct s as [|b s]; simpl.
    + split; [done | by intros [r Hr]].
    + destruct (Ascii.eqb_spec b a) as [->|Hne].
      * rewrite IH. split.
        -- intros [r ->]. by exists r.
        -- intros [r [= ->]]. by exists r.
      * rewrite andb_false_r. split; [done | by intros [r [= ? ?]]].
Qed.


End string_facts.

(** A format with its operands, the diagnostics of [Sprintf], and the
    library functions on small inputs. *)
Example Sprintf_operands :
  fmt.Sprintf "%s is %s, 100%%" ["x"; "nil"] = "x is nil, 100%".
Proof. vm_compute. reflexivity. Qed.

Example Sprintf_missing_and_extra :
  fmt.Sprintf "%s and %s" ["x"] = "x and %!s(MISSING)"
  /\ fmt.Sprintf "%s" ["x"; "y"; "z"] = "x%!(EXTRA string=y, string=z)"
  /\ fmt.Sprintf "%d%" ["x"] = "%!d(string=x)%!(NOVERB)".
Proof. repeat split; vm_compute; reflexivity. Qed.

Example Split_commas :
  strings.Split "mod/a,mod/b" "," = ["mod/a"; "mod/b"]
  /\ strings.Split ",a,,b," "," = [""; "a"; ""; "b"; ""]
  /\ strings.Split "" "," = [""].
Proof. repeat split. Qed.

Example HasPrefix_paths :
  strings.HasPrefix "mod/a/pkg" "mod/a" = true
  /\ strings.HasPrefix "mod" "mod/a" = false
  /\ strings.HasPrefix "mod/b" "mod/a" = false.
Proof. repeat split. Qed.

(** ** Explained booleans *)

Module ExplainedBoolSpec.
Import inference.

(** The renderings, with [Sprintf] evaluated on each format. *)
Lemma String_TrueBecauseShallowConstraint t a :
  String (TrueBecauseShallowConstraint t a) =
  "NILABLE because it describes the value " +:+ ConsumerRepr a +:+
  ", and that value is " +:+ ProducerRepr a +:+ ", where it is NILABLE".
Proof. reflexivity. Qed.

Lemma String_FalseBecauseShallowConstraint f a :
  String (FalseBecauseShallowConstraint f a) =
  "NONNIL because it describes the value " +:+ ProducerRepr a +:+
  ", and that value is " +:+ ConsumerRepr a +:+
  ", where it must be NONNIL".
Proof. reflexivity. Qed.

Lemma String_TrueBecauseDeepConstraint t a d :
  String (TrueBecauseDeepConstraint t a d) =
  "NILABLE because it describes the value " +:+ ConsumerRepr a +:+
  ", and that value is " +:+ ProducerRepr a +:+ ", where it is " +:+
  String d.
Proof.
  rewrite <- (append_empty_r (String d)). reflexivity.
Qed.

Lemma String_FalseBecauseDeepConstraint f a d :
  String (FalseBecauseDeepConstraint f a d) =
  "NONNIL because it describes the value " +:+ ProducerRepr a +:+
  ", and that value is " +:+ ConsumerRepr a +:+ ", where it must be " +:+
  String d.
Proof.
  rewrite <- (append_empty_r (String d)). reflexivity.
Qed.

Lemma String_TrueBecauseMyopia t p :
  String (TrueBecauseMyopia t p) =
  "NILABLE because myopic annotation inference for package " +:+ p +:+
  " decided so".
Proof. reflexivity. Qed.

Lemma String_FalseBecauseMyopia f p :
  String (FalseBecauseMyopia f p) =
  "NONNIL because myopic annotation inference for package " +:+ p +:+
  " decided so".
Proof. reflexivity. Qed.

Lemma leaf_not_deep e : isDeep (leaf e) = false.
Proof. induction e; simpl; auto. Qed.

Lemma ends_with_step (clause s w l : string) :
  s = w +:+ l -> exists before, clause +:+ s = before +:+ l.
Proof. intros ->. exists (clause +:+ w). by rewrite append_assoc. Qed.

(** The rendering of a chain ends with the rendering of its leaf. *)
Lemma String_ends_with_leaf e :
  exists before, String e = before +:+ String (leaf e).
Proof.
  assert (Hterminal : forall e', leaf e' = e' ->
            exists before, String e' = before +:+ String (leaf e')).
  { intros e' ->. exists "". symmetry. apply append_empty_l. }
  induction e as [t a|f a|t a d [w IH]|f a d [w IH]|t|f|t p|f p];
    try (by apply Hterminal).
  - rewrite String_TrueBecauseDeepConstraint.
    change (leaf (TrueBecauseDeepConstraint t a d)) with (leaf d).
    rewrite <- 4!append_assoc. exact (ends_with_step _ _ _ _ IH).
  - rewrite String_FalseBecauseDeepConstraint.
    change (leaf (FalseBecauseDeepConstraint f a d)) with (leaf d).
    rewrite <- 4!append_assoc. exact (ends_with_step _ _ _ _ IH).
Qed.

(** A deep constraint over a myopia label, rendered. *)
Example String_chain :
  String
    (TrueBecauseDeepConstraint mkExplainedTrue
       {| ProducerRepr := "returned from f()"; ConsumerRepr := "x" |}
       (TrueBecauseMyopia mkExplainedTrue "pkg"))
  = "NILABLE because it describes the value x, and that value is returned from f(), where it is NILABLE because myopic annotation inference for package pkg decided so".
Proof. vm_compute. reflexivity. Qed.

(** C1. Every explained boolean carries the value fixed by its variant:
    [Val] is [true] on the four true-variants and [false] on the four
    false-variants, whatever the payload (trigger, deeper explanation,
    package name); and every explained boolean has exactly one of the
    four justification shapes. *)
Theorem Val_fixed_by_variant :
  (forall t a, Val (TrueBecauseShallowConstraint t a) = true)
  /\ (forall t a d, Val (TrueBecauseDeepConstraint t a d) = true)
  /\ (forall t, Val (TrueBecauseAnnotation t) = true)
  /\ (forall t p, Val (TrueBecauseMyopia t p) = true)
  /\ (forall f a, Val (FalseBecauseShallowConstraint f a) = false)
  /\ (forall f a d, Val (FalseBecauseDeepConstraint f a d) = false)
  /\ (forall f, Val (FalseBecauseAnnotation f) = false)
  /\ (forall f p, Val (FalseBecauseMyopia f p) = false)
  /\ (forall e, exists! s, HasShape e s).
Proof.
  repeat split; try reflexivity.
  destruct e.
  1,2: exists ShallowConstraint.
  3,4: exists DeepConstraint.
  5,6: exists Annotation.
  7,8: exists Myopia.
  all: split; [constructor | by inversion 1].
Qed.

(** C2. Rendering is a recursive causal sentence.  The text of a deep
    constraint, true or false, is its own clause followed by the whole
    text of its deeper explanation; hence the text of any chain of deep
    constraints ends with the text of its leaf, which is not a deep
    constraint.  The texts of shallow constraints, annotations and
    myopia labels are terminal sentences, and every text has the form
    "NILABLE because ..." or "NONNIL because ..." according to the
    value. *)
Theorem String_unwraps_deep_constraints :
  (forall t a d,
      String (TrueBecauseDeepConstraint t a d) =
      "NILABLE because it describes the value " +:+ ConsumerRepr a +:+
      ", and that value is " +:+ ProducerRepr a +:+ ", where it is " +:+
      String d)
  /\ (forall f a d,
      String (FalseBecauseDeepConstraint f a d) =
      "NONNIL because it describes the value " +:+ ProducerRepr a +:+
      ", and that value is " +:+ ConsumerRepr a +:+
      ", where it must be " +:+ String d)
  /\ (forall e,
      isDeep (leaf e) = false
      /\ exists before, String e = before +:+ String (leaf e))
  /\ (forall t a,
      String (TrueBecauseShallowConstraint t a) =
      "NILABLE because it describes the value " +:+ ConsumerRepr a +:+
      ", and that value is " +:+ ProducerRepr a +:+
      ", where it is NILABLE")
  /\ (forall f a,
      String (FalseBecauseShallowConstraint f a) =
      "NONNIL because it describes the value " +:+ ProducerRepr a +:+
      ", and that value is " +:+ ConsumerRepr a +:+
      ", where it must be NONNIL")
  /\ (forall t,
      String (TrueBecauseAnnotation t) =
      "NILABLE because it is annotated as so")
  /\ (forall f,
      String (FalseBecauseAnnotation f) =
      "NONNIL because it is annotated as so")
  /\ (forall t p,
      String (TrueBecauseMyopia t p) =
      "NILABLE because myopic annotation inference for package " +:+ p
      +:+ " decided so")
  /\ (forall f p,
      String (FalseBecauseMyopia f p) =
      "NONNIL because myopic annotation inference for package " +:+ p
      +:+ " decided so")
  /\ (forall e, exists reason,
      String e =
      (if Val e then "NILABLE" else "NONNIL") +:+ " because " +:+ reason).
Proof.
  split; [exact String_TrueBecauseDeepConstraint|].
  split; [exact String_FalseBecauseDeepConstraint|].
  split; [intros e; split;
           [apply leaf_not_deep | apply String_ends_with_leaf]|].
  split; [exact String_TrueBecauseShallowConstraint|].
  split; [exact String_FalseBecauseShallowConstraint|].
  split; [reflexivity|]. split; [reflexivity|].
  split; [exact String_TrueBecauseMyopia|].
  split; [exact String_FalseBecauseMyopia|].
  intros [t a|f a|t a d|f a d|t|f|t p|f p].
  - exists ("it describes the value " +:+ ConsumerRepr a +:+
            ", and that value is " +:+ ProducerRepr a +:+
            ", where it is NILABLE").
    apply String_TrueBecauseShallowConstraint.
  - exists ("it describes the value " +:+ ProducerRepr a +:+
            ", and that value is " +:+ ConsumerRepr a +:+
            ", where it must be NONNIL").
    apply String_FalseBecauseShallowConstraint.
  - exists ("it describes the value " +:+ ConsumerRepr a +:+
            ", and that value is " +:+ ProducerRepr a +:+
            ", where it is " +:+ String d).
    apply String_TrueBecauseDeepConstraint.
  - exists ("it describes the value " +:+ ProducerRepr a +:+
            ", and that value is " +:+ ConsumerRepr a +:+
            ", where it must be " +:+ String d).
    apply String_FalseBecauseDeepConstraint.
  - by exists "it is annotated as so".
  - by exists "it is annotated as so".
  - exists ("myopic annotation inference for package " +:+ p +:+
            " decided so").
    apply String_TrueBecauseMyopia.
  - exists ("myopic annotation inference for package " +:+ p +:+
            " decided so").
    apply String_FalseBecauseMyopia.
Qed.

(** C7. A myopia label is scoped to its package: [TrueBecauseMyopia]
    and [FalseBecauseMyopia] hold the package name as their payload, and
    their text names it: "... myopic annotation inference for package
    <PkgName> decided so". *)
Theorem Myopia_names_its_package :
  (forall t PkgName,
      String (TrueBecauseMyopia t PkgName) =
      "NILABLE because myopic annotation inference for package "
      +:+ PkgName +:+ " decided so")
  /\ (forall f PkgName,
      String (FalseBecauseMyopia f PkgName) =
      "NONNIL because myopic annotation inference for package "
      +:+ PkgName +:+ " decided so").
Proof. split; reflexivity. Qed.

End ExplainedBoolSpec.

(** ** The flag package: what parsing a command line preserves *)

Section flag_facts.
Import flag.

Lemma sameKind_trans u v w :
  sameKind u v = true -> sameKind v w = true -> sameKind u w = true.
Proof. by destruct u, v, w. Qed.

Lemma sameKind_refl v : sameKind v v = true.
Proof. by destruct v. Qed.

Lemma sameKind_bool b v :
  sameKind (boolValue b) v = true -> exists b', v = boolValue b'.
Proof. destruct v; [eauto | done | done]. Qed.

Lemma sameKind_int i v :
  sameKind (intValue i) v = true -> exists i', v = intValue i'.
Proof. destruct v; [done | eauto | done]. Qed.

Lemma sameKind_string s v :
  sameKind (stringValue s) v = true -> exists s', v = stringValue s'.
Proof. destruct v; [done | done | eauto]. Qed.

(** A successful [Set] stores the value under the name and leaves the
    other flags alone. *)
Lemma Set_valueOf (f f' : FlagSet) name value :
  FlagSet_Set f name value = Some f' ->
  (exists old, config.valueOf f name = Some old
               /\ sameKind old value = true)
  /\ config.valueOf f' name = Some value
  /\ forall other, other <> name ->
       config.valueOf f' other = config.valueOf f other.
Proof.
  unfold FlagSet_Set, config.valueOf, Lookup.
  destruct (f !! name) as [fl|] eqn:Hfl; [|done].
  destruct (sameKind (FlagValue fl) value) eqn:Hkind; [|done].
  intros [= <-]. split; [|split].
  - by exists (FlagValue fl).
  - by rewrite lookup_insert_eq.
  - intros other Hne. by rewrite lookup_insert_ne.
Qed.

(** Parsing never removes a flag nor changes its kind. *)
Lemma Parse_kind arguments : forall (f f' : FlagSet),
  Parse f arguments = Some f' ->
  forall name v, config.valueOf f name = Some v ->
  exists v', config.valueOf f' name = Some v' /\ sameKind v v' = true.
Proof.
  induction arguments as [|[n value] rest IH]; intros f f' Hparse name v Hv.
  - injection Hparse as <-. exists v. split; [done | apply sameKind_refl].
  - simpl in Hparse.
    destruct (FlagSet_Set f n value) as [f1|] eqn:Hset; [|done].
    destruct (Set_valueOf _ _ _ _ Hset) as ((old & Hold & Hk) & Hnew & Hother).
    destruct (decide (name = n)) as [->|Hne].
    + assert (old = v) as -> by congruence.
      destruct (IH _ _ Hparse n value Hnew) as (v' & Hv' & Hk').
      exists v'. split; [done | by eapply sameKind_trans].
    + apply (IH _ _ Hparse). by rewrite Hother.
Qed.

(** A flag that the command line does not name keeps its value. *)
Lemma Parse_untouched arguments : forall (f f' : FlagSet) name,
  Parse f arguments = Some f' ->
  name ∉ arguments.*1 ->
  config.valueOf f' name = config.valueOf f name.
Proof.
  induction arguments as [|[n value] rest IH]; intros f f' name Hparse Hnot.
  - by injection Hparse as <-.
  - simpl in Hparse, Hnot.
    destruct (FlagSet_Set f n value) as [f1|] eqn:Hset; [|done].
    destruct (Set_valueOf _ _ _ _ Hset) as (_ & _ & Hother).
    apply not_elem_of_cons in Hnot as [Hne Hnot].
    rewrite (IH _ _ _ Hparse Hnot). by apply Hother.
Qed.

(** The flag named last on the command line holds the value given
    there. *)
Lemma Parse_last arguments : forall (f f' : FlagSet) name value,
  Parse f (arguments ++ [(name, value)]) = Some f' ->
  config.valueOf f' name = Some value.
Proof.
  induction arguments as [|[n v] rest IH]; intros f f' name value Hparse.
  - simpl in Hparse.
    destruct (FlagSet_Set f name value) as [f1|] eqn:Hset; [|done].
    injection Hparse as <-.
    by destruct (Set_valueOf _ _ _ _ Hset) as (_ & Hnew & _).
  - simpl in Hparse.
    destruct (FlagSet_Set f n v) as [f1|] eqn:Hset; [|done].
    by apply (IH f1).
Qed.

End flag_facts.

(** ** Package config *)

Module ConfigSpec.
Import config.

(** *** Scope of packages *)

Lemma rangeExcludePkgs_true pkgPath excludes :
  rangeExcludePkgs pkgPath excludes = true <->
  ~ exists exclude, exclude ∈ excludes /\ prefixOf exclude pkgPath.
Proof.
  induction excludes as [|x rest IH]; simpl.
  - split; [|done]. intros _ (e & He & _). by apply elem_of_nil in He.
  - destruct (strings.HasPrefix pkgPath x) eqn:Hx.
    + split; [done|]. intros Hno. exfalso. apply Hno.
      exists x. split; [left | by apply HasPrefix_prefixOf].
    + rewrite IH. split.
      * intros Hno (e & [->|He]%elem_of_cons & Hp).
        -- apply HasPrefix_prefixOf in Hp. congruence.
        -- apply Hno. eauto.
      * intros Hno (e & He & Hp). apply Hno. exists e.
        split; [by right | done].
Qed.

Lemma rangeIncludePkgs_true pkgPath includes excludes :
  rangeIncludePkgs pkgPath includes excludes = true <->
  (exists include, include ∈ includes /\ prefixOf include pkgPath)
  /\ rangeExcludePkgs pkgPath excludes = true.
Proof.
  induction includes as [|x rest IH]; simpl.
  - split; [done|]. intros [(i & Hi & _) _]. by apply elem_of_nil in Hi.
  - destruct (strings.HasPrefix pkgPath x) eqn:Hx; simpl.
    + split; [|by intros [_ ?]]. intros Hex. split; [|done].
      exists x. split; [left | by apply HasPrefix_prefixOf].
    + rewrite IH. split.
      * intros [(i & Hi & Hp) Hex]. split; [|done].
        exists i. split; [by right | done].
      * intros [(i & [->|Hi]%elem_of_cons & Hp) Hex].
        -- apply HasPrefix_prefixOf in Hp. congruence.
        -- split; [eauto | done].
Qed.

(** C3. A non-nil package is in scope if and only if some entry of the
    include list is a prefix of its path and no entry of the exclude
    list is (exclusion wins over inclusion).  With include list
    ["mod/a"] and exclude list ["mod/a/internal"], a package at
    "mod/a/pkg" is in scope and packages at "mod/a/internal/x" and
    "mod/b" are not. *)
Theorem IsPkgInScope_included_and_not_excluded :
  (forall c pkg,
      IsPkgInScope c (Some pkg) = true <->
      (exists include,
          include ∈ includePkgs c /\ prefixOf include (types.Path pkg))
      /\ ~ (exists exclude,
          exclude ∈ excludePkgs c /\ prefixOf exclude (types.Path pkg)))
  /\ (forall c name,
      let c' :=
        set_includePkgs ["mod/a"] (set_excludePkgs ["mod/a/internal"] c) in
      let pkg path := Some {| types.path := path; types.name := name |} in
      IsPkgInScope c' (pkg "mod/a/pkg") = true
      /\ IsPkgInScope c' (pkg "mod/a/internal/x") = false
      /\ IsPkgInScope c' (pkg "mod/b") = false).
Proof.
  split.
  - intros c pkg. unfold IsPkgInScope.
    by rewrite rangeIncludePkgs_true, rangeExcludePkgs_true.
  - intros c name. split; [|split]; reflexivity.
Qed.

(** C9. A nil package is never in scope, whatever the configuration,
    and the call returns (it does not fail). *)
Theorem IsPkgInScope_nil (c : Config) : IsPkgInScope c None = false.
Proof. reflexivity. Qed.

(** *** Scope of files *)

Section files.
Variable DocContains : ast.CommentGroup -> string -> bool.

Lemma rangeExcludeFileDocStrings_true comment excludes :
  rangeExcludeFileDocStrings DocContains comment excludes = true <->
  exists exclude, exclude ∈ excludes /\ DocContains comment exclude = true.
Proof.
  induction excludes as [|x rest IH]; simpl.
  - split; [done|]. intros (e & He & _). by apply elem_of_nil in He.
  - destruct (DocContains comment x) eqn:Hx.
    + split; [|done]. intros _. exists x. split; [left | done].
    + rewrite IH. split.
      * intros (e & He & Hd). exists e. split; [by right | done].
      * intros (e & [->|He]%elem_of_cons & Hd); [congruence | eauto].
Qed.

Lemma rangeComments_false namePos comments excludes :
  rangeComments DocContains namePos comments excludes = false <->
  exists comment exclude,
    comment ∈ comments
    /\ ast.CommentGroup_Pos comment <= namePos
    /\ exclude ∈ excludes
    /\ DocContains comment exclude = true.
Proof.
  induction comments as [|g rest IH]; simpl.
  - split; [done|]. intros (g & e & Hg & _). by apply elem_of_nil in Hg.
  - destruct (Z.gtb_spec (ast.CommentGroup_Pos g) namePos) as [Hgt|Hle].
    + rewrite IH. split.
      * intros (g' & e & Hg' & H). exists g', e.
        split; [by right | done].
      * intros (g' & e & [->|Hg']%elem_of_cons & Hpos & H);
          [lia | by exists g', e].
    + destruct (rangeExcludeFileDocStrings DocContains g excludes)
        eqn:Hhit.
      * split; [|done]. intros _.
        apply rangeExcludeFileDocStrings_true in Hhit as (e & He & Hd).
        exists g, e. split; [left | done].
      * rewrite IH. split.
        -- intros (g' & e & Hg' & H). exists g', e.
           split; [by right | done].
        -- intros (g' & e & [->|Hg']%elem_of_cons & Hpos & He & Hd).
           ++ assert (rangeExcludeFileDocStrings DocContains g excludes
                      = true) by (apply rangeExcludeFileDocStrings_true;
                                  eauto).
              congruence.
           ++ by exists g', e.
Qed.

End files.

(** C5. [IsFileInScope] returns true whenever the list of exclude
    docstrings is empty; and it returns false if and only if some
    configured exclude docstring is contained in a comment group of the
    file that does not come after the package name.  The result is a
    boolean in every case: an out-of-scope file is filtered, not
    reported as an error. *)
Theorem IsFileInScope_exclude_docstrings
    (DocContains : ast.CommentGroup -> string -> bool) :
  (forall c file,
      IsFileInScope DocContains (set_excludeFileDocStrings [] c) file
      = true)
  /\ (forall c file,
      IsFileInScope DocContains c file = false <->
      exists comment exclude,
        comment ∈ ast.Comments file
        /\ ast.CommentGroup_Pos comment <= ast.Ident_Pos (ast.Name file)
        /\ exclude ∈ excludeFileDocStrings c
        /\ DocContains comment exclude = true).
Proof.
  split; [done|].
  intros c file. unfold IsFileInScope.
  destruct (excludeFileDocStrings c) as [|x rest] eqn:Hex; simpl.
  - split; [done|]. intros (g & e & _ & _ & He & _).
    by apply elem_of_nil in He.
  - apply rangeComments_false.
Qed.

(** *** The analyzer *)

(** The names that [newFlagSet] registers are pairwise distinct, so
    no registration redefines a flag. *)
Lemma flag_names_distinct :
  NoDup [PrettyPrintFlag; GroupErrorMessagesFlag; FuncAnalysisTimeoutFlag;
         IncludePkgsFlag; ExcludePkgsFlag; ExcludeFileDocStringsFlag;
         ExperimentalStructInitEnableFlag;
         ExperimentalAnonymousFunctionFlag].
Proof. by apply (bool_decide_unpack _). Qed.

(** The flags as [newFlagSet] registers them. *)
Lemma newFlagSet_defaults :
  valueOf newFlagSet PrettyPrintFlag = Some (flag.boolValue true)
  /\ valueOf newFlagSet GroupErrorMessagesFlag = Some (flag.boolValue true)
  /\ valueOf newFlagSet FuncAnalysisTimeoutFlag = Some (flag.intValue 1)
  /\ valueOf newFlagSet ExperimentalStructInitEnableFlag
     = Some (flag.boolValue false)
  /\ valueOf newFlagSet ExperimentalAnonymousFunctionFlag
     = Some (flag.boolValue false)
  /\ valueOf newFlagSet IncludePkgsFlag = Some (flag.stringValue "")
  /\ valueOf newFlagSet ExcludePkgsFlag = Some (flag.stringValue "")
  /\ valueOf newFlagSet ExcludeFileDocStringsFlag
     = Some (flag.stringValue "").
Proof. repeat split; vm_compute; reflexivity. Qed.

Lemma lookupGet_valueOf pass name v :
  valueOf (analysis.Flags (analysis.PassAnalyzer pass)) name = Some v ->
  lookupGet pass name = Some (flag.Get v).
Proof.
  unfold valueOf, lookupGet. intros (fl & -> & ->)%fmap_Some. done.
Qed.

(** [run] on a pass whose eight flags are registered with their
    kinds. *)
Lemma run_registered pass b1 b2 i b3 b4 s1 s2 s3 :
  let flags := analysis.Flags (analysis.PassAnalyzer pass) in
  valueOf flags PrettyPrintFlag = Some (flag.boolValue b1) ->
  valueOf flags GroupErrorMessagesFlag = Some (flag.boolValue b2) ->
  valueOf flags FuncAnalysisTimeoutFlag = Some (flag.intValue i) ->
  valueOf flags ExperimentalStructInitEnableFlag
    = Some (flag.boolValue b3) ->
  valueOf flags ExperimentalAnonymousFunctionFlag
    = Some (flag.boolValue b4) ->
  valueOf flags IncludePkgsFlag = Some (flag.stringValue s1) ->
  valueOf flags ExcludePkgsFlag = Some (flag.stringValue s2) ->
  valueOf flags ExcludeFileDocStringsFlag = Some (flag.stringValue s3) ->
  run pass = Some (Some (configOf b1 b2 i b3 b4 s1 s2 s3), None).
Proof.
  intros flags H1 H2 H3 H4 H5 H6 H7 H8. unfold run.
  rewrite (lookupGet_valueOf _ _ _ H1), (lookupGet_valueOf _ _ _ H2),
    (lookupGet_valueOf _ _ _ H3), (lookupGet_valueOf _ _ _ H4),
    (lookupGet_valueOf _ _ _ H5), (lookupGet_valueOf _ _ _ H6),
    (lookupGet_valueOf _ _ _ H7), (lookupGet_valueOf _ _ _ H8).
  unfold configOf. simpl.
  by destruct (String.eqb s1 ""), (String.eqb s2 ""), (String.eqb s3 "").
Qed.

(** Every pass of the analyzer has the eight flags, each of the kind
    it was registered with. *)
Lemma passOf_registered arguments pass :
  passOf arguments = Some pass ->
  let flags := analysis.Flags (analysis.PassAnalyzer pass) in
  flag.Parse newFlagSet arguments = Some flags
  /\ exists b1 b2 i b3 b4 s1 s2 s3,
    valueOf flags PrettyPrintFlag = Some (flag.boolValue b1)
    /\ valueOf flags GroupErrorMessagesFlag = Some (flag.boolValue b2)
    /\ valueOf flags FuncAnalysisTimeoutFlag = Some (flag.intValue i)
    /\ valueOf flags ExperimentalStructInitEnableFlag
       = Some (flag.boolValue b3)
    /\ valueOf flags ExperimentalAnonymousFunctionFlag
       = Some (flag.boolValue b4)
    /\ valueOf flags IncludePkgsFlag = Some (flag.stringValue s1)
    /\ valueOf flags ExcludePkgsFlag = Some (flag.stringValue s2)
    /\ valueOf flags ExcludeFileDocStringsFlag
       = Some (flag.stringValue s3).
Proof.
  unfold passOf. change (analysis.Flags Analyzer) with newFlagSet.
  destruct (flag.Parse newFlagSet arguments) as [flags|] eqn:Hparse;
    [|done].
  intros [= <-]. simpl. split; [done|].
  pose proof (Parse_kind _ _ _ Hparse) as Hkind.
  destruct newFlagSet_defaults
    as (D1 & D2 & D3 & D4 & D5 & D6 & D7 & D8).
  destruct (Hkind _ _ D1) as (? & H1 & [b1 ->]%sameKind_bool).
  destruct (Hkind _ _ D2) as (? & H2 & [b2 ->]%sameKind_bool).
  destruct (Hkind _ _ D3) as (? & H3 & [i ->]%sameKind_int).
  destruct (Hkind _ _ D4) as (? & H4 & [b3 ->]%sameKind_bool).
  destruct (Hkind _ _ D5) as (? & H5 & [b4 ->]%sameKind_bool).
  destruct (Hkind _ _ D6) as (? & H6 & [s1 ->]%sameKind_string).
  destruct (Hkind _ _ D7) as (? & H7 & [s2 ->]%sameKind_string).
  destruct (Hkind _ _ D8) as (? & H8 & [s3 ->]%sameKind_string).
  exists b1, b2, i, b3, b4, s1, s2, s3. tauto.
Qed.

Lemma run_passOf arguments pass :
  passOf arguments = Some pass ->
  exists b1 b2 i b3 b4 s1 s2 s3,
    run pass = Some (Some (configOf b1 b2 i b3 b4 s1 s2 s3), None)
    /\ forall name v,
         (name, v) ∈ knobs (configOf b1 b2 i b3 b4 s1 s2 s3) ->
         valueOf (analysis.Flags (analysis.PassAnalyzer pass)) name
         = Some v.
Proof.
  intros Hpass.
  destruct (passOf_registered _ _ Hpass)
    as (_ & b1 & b2 & i & b3 & b4 & s1 & s2 & s3
        & H1 & H2 & H3 & H4 & H5 & H6 & H7 & H8).
  exists b1, b2, i, b3, b4, s1, s2, s3. split.
  - by apply run_registered.
  - intros name v Hin. unfold knobs, configOf in Hin. simpl in Hin.
    repeat (apply elem_of_cons in Hin as [[= -> ->]|Hin]; [done|]).
    by apply elem_of_nil in Hin.
Qed.

(** [run] on a pass whose analyzer has no flags panics at the first
    lookup: the passes of this analyzer are those of [passOf]. *)
Example run_without_flags :
  run {| analysis.PassAnalyzer :=
           {| analysis.Name := "other"; analysis.Doc := "";
              analysis.Flags := flag.NewFlagSet |} |} = None.
Proof. reflexivity. Qed.

Example run_with_lists :
  passOf [(IncludePkgsFlag, flag.stringValue "mod/a,mod/b");
          (ExcludePkgsFlag, flag.stringValue "mod/a/internal");
          (FuncAnalysisTimeoutFlag, flag.intValue 5)] ≫= run
  = Some (Some {| PrettyPrint := true;
                  GroupErrorMessages := true;
                  FuncAnalysisTimeout := 5;
                  ExperimentalStructInitEnable := false;
                  ExperimentalAnonymousFuncEnable := false;
                  includePkgs := ["mod/a"; "mod/b"];
                  excludePkgs := ["mod/a/internal"];
                  excludeFileDocStrings := [] |}, None).
Proof. vm_compute. reflexivity. Qed.

(** A value of another kind than the flag's, and an unknown name, are
    errors of the parse. *)
Example passOf_errors :
  passOf [(PrettyPrintFlag, flag.intValue 1)] = None
  /\ passOf [("no-such-flag", flag.boolValue true)] = None.
Proof. split; vm_compute; reflexivity. Qed.

(** C10. [run] never fails: on every pass of the analyzer, whichever
    flags the command line provided, it returns a non-nil [Config] and
    a nil error. *)
Theorem run_never_fails arguments pass :
  passOf arguments = Some pass ->
  exists conf, run pass = Some (Some conf, None).
Proof.
  intros Hpass.
  destruct (run_passOf _ _ Hpass)
    as (b1 & b2 & i & b3 & b4 & s1 & s2 & s3 & Hrun & _).
  eauto.
Qed.

Lemma run_never_fails_witness :
  exists pass,
    passOf [(IncludePkgsFlag, flag.stringValue "mod/a");
            (PrettyPrintFlag, flag.boolValue false)] = Some pass
    /\ exists conf, run pass = Some (Some conf, None).
Proof.
  eexists. split; [reflexivity|].
  apply (run_never_fails
           [(IncludePkgsFlag, flag.stringValue "mod/a");
            (PrettyPrintFlag, flag.boolValue false)]).
  reflexivity.
Defined.

(** C6. The configuration exposes exactly the primitive knobs of the
    specification: a pretty-print toggle, a group-similar-conflicts
    toggle, a per-function timeout in seconds, and the feature flags
    for struct initialization and anonymous functions.  On every pass,
    [run] returns a [Config] whose knobs equal the values of the
    corresponding flags, so a knob provided on the command line has the
    value provided; with no flag provided the knobs are
    PrettyPrint=true, GroupErrorMessages=true, FuncAnalysisTimeout=1 and
    both experimental flags false. *)
Theorem run_exposes_primitive_knobs :
  (forall name,
      (exists v, valueOf newFlagSet name = Some v /\ isPrimitive v = true)
      <-> name ∈ [PrettyPrintFlag; GroupErrorMessagesFlag;
                  FuncAnalysisTimeoutFlag;
                  ExperimentalStructInitEnableFlag;
                  ExperimentalAnonymousFunctionFlag])
  /\ (forall arguments pass,
      passOf arguments = Some pass ->
      exists conf,
        run pass = Some (Some conf, None)
        /\ forall name v, (name, v) ∈ knobs conf ->
             valueOf (analysis.Flags (analysis.PassAnalyzer pass)) name
             = Some v)
  /\ (forall arguments name provided pass,
      passOf (arguments ++ [(name, provided)]) = Some pass ->
      exists conf,
        run pass = Some (Some conf, None)
        /\ forall v, (name, v) ∈ knobs conf -> v = provided)
  /\ (exists pass conf,
      passOf [] = Some pass
      /\ run pass = Some (Some conf, None)
      /\ PrettyPrint conf = true
      /\ GroupErrorMessages conf = true
      /\ FuncAnalysisTimeout conf = 1
      /\ ExperimentalStructInitEnable conf = false
      /\ ExperimentalAnonymousFuncEnable conf = false).
Proof.
  split; [|split; [|split]].
  - intros name. unfold valueOf, flag.Lookup, newFlagSet, flag.Bool,
      flag.Int, flag.String, flag.Var, flag.NewFlagSet.
    rewrite !lookup_insert, lookup_empty. split.
    + intros (v & Hv & Hprim).
      destruct (decide (ExperimentalAnonymousFunctionFlag = name))
        as [<-|?]; [repeat constructor|].
      destruct (decide (ExperimentalStructInitEnableFlag = name))
        as [<-|?]; [repeat constructor|].
      destruct (decide (ExcludeFileDocStringsFlag = name))
        as [<-|?]; [by injection Hv as <-|].
      destruct (decide (ExcludePkgsFlag = name))
        as [<-|?]; [by injection Hv as <-|].
      destruct (decide (IncludePkgsFlag = name))
        as [<-|?]; [by injection Hv as <-|].
      destruct (decide (FuncAnalysisTimeoutFlag = name))
        as [<-|?]; [repeat constructor|].
      destruct (decide (GroupErrorMessagesFlag = name))
        as [<-|?]; [repeat constructor|].
      destruct (decide (PrettyPrintFlag = name))
        as [<-|?]; [repeat constructor|].
      done.
    + intros Hin.
      repeat (apply elem_of_cons in Hin as [->|Hin];
              [eexists; split; [reflexivity | reflexivity] |]).
      by apply elem_of_nil in Hin.
  - intros arguments pass Hpass.
    destruct (run_passOf _ _ Hpass)
      as (b1 & b2 & i & b3 & b4 & s1 & s2 & s3 & Hrun & Hknobs).
    eauto.
  - intros arguments name provided pass Hpass.
    destruct (run_passOf _ _ Hpass)
      as (b1 & b2 & i & b3 & b4 & s1 & s2 & s3 & Hrun & Hknobs).
    eexists. split; [exact Hrun|].
    intros v Hv. apply Hknobs in Hv.
    apply passOf_registered in Hpass as [Hparse _].
    apply Parse_last in Hparse. congruence.
  - destruct newFlagSet_defaults
      as (D1 & D2 & D3 & D4 & D5 & D6 & D7 & D8).
    exists {| analysis.PassAnalyzer := Analyzer |},
      (configOf true true 1 false false "" "" "").
    split; [reflexivity|]. split; [by apply run_registered|].
    by repeat split.
Qed.

Lemma run_exposes_primitive_knobs_witness :
  exists pass conf,
    passOf [(FuncAnalysisTimeoutFlag, flag.intValue 5);
            (PrettyPrintFlag, flag.boolValue false)] = Some pass
    /\ run pass = Some (Some conf, None)
    /\ forall v, (PrettyPrintFlag, v) ∈ knobs conf ->
         v = flag.boolValue false.
Proof.
  destruct run_exposes_primitive_knobs as (_ & _ & Hprovided & _).
  eexists.
  destruct (Hprovided [(FuncAnalysisTimeoutFlag, flag.intValue 5)]
              PrettyPrintFlag (flag.boolValue false) _ eq_refl)
    as (conf & Hrun & Hknob).
  exists conf. split; [reflexivity|]. split; [exact Hrun | exact Hknob].
Defined.



End ConfigSpec.

(** * Further properties of the two packages *)

(** ** More on strings: lengths, cancellation, and splitting *)

Section split_facts.

Lemma append_length (s1 s2 : string) :
  String.length (s1 +:+ s2) = (String.length s1 + String.length s2)%nat.
Proof.
  induction s1 as [|c s1 IH]; [done|].
  change (S (String.length (s1 +:+ s2))
          = S (String.length s1 + String.length s2)). by rewrite IH.
Qed.

(** Cancellation of a common ending. *)
Lemma append_inj_r (s1 s2 t : string) : s1 +:+ t = s2 +:+ t -> s1 = s2.
Proof.
  revert s2. induction s1 as [|c s1 IH]; intros [|d s2] H.
  - done.
  - apply (f_equal String.length) in H.
    rewrite !append_length in H. simpl in H. lia.
  - apply (f_equal String.length) in H.
    rewrite !append_length in H. simpl in H. lia.
  - injection H as -> H. f_equal. by apply IH.
Qed.

Lemma Split_nonempty (s : string) (sep : ascii) : strings.Split s sep <> [].
Proof.
  destruct s as [|c s]; simpl; [done|].
  destruct (Ascii.eqb c sep); [done|].
  by destruct (strings.Split s sep).
Qed.

(** Splitting around a separator: the pieces of the text before it,
    then the pieces of the text after it. *)
Lemma Split_app_sep (s1 s2 : string) (sep : ascii) :
  strings.Split (s1 +:+ String sep s2) sep
  = strings.Split s1 sep ++ strings.Split s2 sep.
Proof.
  induction s1 as [|c s1 IH].
  - change (strings.Split (String sep s2) sep
            = "" :: strings.Split s2 sep).
    simpl. by rewrite Ascii.eqb_refl.
  - change (strings.Split (String c (s1 +:+ String sep s2)) sep
            = strings.Split (String c s1) sep ++ strings.Split s2 sep).
    simpl. rewrite IH. destruct (Ascii.eqb c sep); [done|].
    pose proof (Split_nonempty s1 sep).
    by destruct (strings.Split s1 sep).
Qed.

(** Joining the pieces with the separator gives the text back. *)
Lemma concat_Split (s : string) (sep : ascii) :
  String.concat (String sep "") (strings.Split s sep) = s.
Proof.
  induction s as [|c s IH]; [done|]. simpl strings.Split.
  pose proof (Split_nonempty s sep) as Hne.
  destruct (Ascii.eqb_spec c sep) as [->|Hc].
  - destruct (strings.Split s sep) as [|p ps] eqn:Hs; [done|].
    change (String sep (String.concat (String sep "") (p :: ps))
            = String sep s). by rewrite IH.
  - destruct (strings.Split s sep) as [|p [|q ps]] eqn:Hs; [done|..].
    + simpl in *. by rewrite IH.
    + change (String c (String.concat (String sep "") (p :: q :: ps))
              = String c s). by rewrite IH.
Qed.

(** No piece contains the separator. *)
Lemma Split_no_sep (s : string) (sep : ascii) :
  Forall (fun piece => sep ∉ String.list_ascii_of_string piece)
         (strings.Split s sep).
Proof.
  induction s as [|c s IH]; simpl.
  - repeat constructor. apply not_elem_of_nil.
  - destruct (Ascii.eqb_spec c sep) as [->|Hc].
    + constructor; [apply not_elem_of_nil | done].
    + destruct (strings.Split s sep) as [|p ps].
      * repeat constructor. simpl. by intros [?|[]%elem_of_nil]%elem_of_cons.
      * inversion IH as [|? ? Hp Hps]; subst. constructor; [|done].
        simpl. by intros [?|?]%elem_of_cons.
Qed.

(** A text that ends with the separator has an empty last piece. *)
Lemma Split_trailing_sep (s : string) (sep : ascii) :
  "" ∈ strings.Split (s +:+ String sep "") sep.
Proof.
  rewrite Split_app_sep. apply elem_of_app. right. simpl. left.
Qed.

End split_facts.

(** ** More on explained booleans: what the text tells and what it hides *)

Module ExplainedBoolMore.
Import inference.

(** "NILABLE" and "NONNIL" part at their second byte. *)
Lemma String_second_byte e :
  String.get 1 (String e) = Some (if Val e then "I"%char else "O"%char).
Proof.
  destruct e as [t a|f a|t a d|f a d|t|f|t p|f p].
  - rewrite ExplainedBoolSpec.String_TrueBecauseShallowConstraint.
    reflexivity.
  - rewrite ExplainedBoolSpec.String_FalseBecauseShallowConstraint.
    reflexivity.
  - rewrite ExplainedBoolSpec.String_TrueBecauseDeepConstraint.
    reflexivity.
  - rewrite ExplainedBoolSpec.String_FalseBecauseDeepConstraint.
    reflexivity.
  - reflexivity.
  - reflexivity.
  - rewrite ExplainedBoolSpec.String_TrueBecauseMyopia. reflexivity.
  - rewrite ExplainedBoolSpec.String_FalseBecauseMyopia. reflexivity.
Qed.

(** The text does not determine the explanation: when a representation
    contains the words that join the two representations of a shallow
    constraint, two different triggers render to the same sentence. *)
Theorem String_hides_the_trigger t x y z :
  let joint := ", and that value is " in
  let e1 :=
    TrueBecauseShallowConstraint t
      {| ProducerRepr := z; ConsumerRepr := x +:+ joint +:+ y |} in
  let e2 :=
    TrueBecauseShallowConstraint t
      {| ProducerRepr := y +:+ joint +:+ z; ConsumerRepr := x |} in
  e1 <> e2 /\ String e1 = String e2.
Proof.
  intros joint e1 e2. split.
  - intros [= _ Hx]. apply (f_equal String.length) in Hx.
    rewrite !append_length in Hx. simpl in Hx. lia.
  - unfold e1, e2.
    rewrite !ExplainedBoolSpec.String_TrueBecauseShallowConstraint.
    simpl ProducerRepr. simpl ConsumerRepr.
    f_equal. by rewrite !append_assoc.
Qed.

(** The text tells the value: explained booleans with the same text
    have the same [Val], also when they are different explanations. *)
Theorem String_tells_Val e1 e2 : String e1 = String e2 -> Val e1 = Val e2.
Proof.
  intros H. pose proof (String_second_byte e1) as H1.
  rewrite H, String_second_byte in H1.
  by destruct (Val e1), (Val e2).
Qed.

Lemma String_tells_Val_witness :
  let e1 :=
    TrueBecauseShallowConstraint mkExplainedTrue
      {| ProducerRepr := "nil";
         ConsumerRepr := "x" +:+ ", and that value is " +:+ "y" |} in
  let e2 :=
    TrueBecauseShallowConstraint mkExplainedTrue
      {| ProducerRepr := "y" +:+ ", and that value is " +:+ "nil";
         ConsumerRepr := "x" |} in
  String e1 = String e2 /\ Val e1 = Val e2.
Proof.
  intros e1 e2.
  assert (Htext : String e1 = String e2) by (vm_compute; reflexivity).
  split; [exact Htext | exact (String_tells_Val e1 e2 Htext)].
Defined.

(** The text of a myopia label determines its package: labels of the
    same value for different packages never render alike. *)
Theorem Myopia_text_determines_package t t' f f' p q :
  String (TrueBecauseMyopia t p) = String (TrueBecauseMyopia t' q)
  \/ String (FalseBecauseMyopia f p) = String (FalseBecauseMyopia f' q) ->
  p = q.
Proof.
  rewrite !ExplainedBoolSpec.String_TrueBecauseMyopia,
    !ExplainedBoolSpec.String_FalseBecauseMyopia.
  intros [H|H]; apply (inj (String.app _)) in H;
    by apply append_inj_r in H.
Qed.

Lemma Myopia_text_determines_package_witness :
  String (TrueBecauseMyopia mkExplainedTrue "pkg")
  = String (TrueBecauseMyopia mkExplainedTrue ("p" +:+ "kg"))
  /\ "pkg" = "p" +:+ "kg".
Proof.
  assert (H : String (TrueBecauseMyopia mkExplainedTrue "pkg")
              = String (TrueBecauseMyopia mkExplainedTrue ("p" +:+ "kg")))
    by reflexivity.
  split; [exact H|].
  apply (Myopia_text_determines_package mkExplainedTrue mkExplainedTrue
           mkExplainedFalse mkExplainedFalse "pkg" ("p" +:+ "kg")).
  left. exact H.
Defined.

End ExplainedBoolMore.

(** ** More on package config: scope as a function of the lists, and
       what [run] makes of the list flags *)

Module ConfigMore.
Import config.

Lemma IsPkgInScope_Some_true c pkg :
  IsPkgInScope c (Some pkg) = true <->
  (exists include,
      include ∈ includePkgs c /\ prefixOf include (types.Path pkg))
  /\ ~ (exists exclude,
      exclude ∈ excludePkgs c /\ prefixOf exclude (types.Path pkg)).
Proof.
  unfold IsPkgInScope.
  by rewrite ConfigSpec.rangeIncludePkgs_true,
    ConfigSpec.rangeExcludePkgs_true.
Qed.

Lemma IsFileInScope_false DocContains c file :
  IsFileInScope DocContains c file = false <->
  exists comment exclude,
    comment ∈ ast.Comments file
    /\ ast.CommentGroup_Pos comment <= ast.Ident_Pos (ast.Name file)
    /\ exclude ∈ excludeFileDocStrings c
    /\ DocContains comment exclude = true.
Proof.
  unfold IsFileInScope.
  destruct (excludeFileDocStrings c) as [|x rest] eqn:Hex; simpl.
  - split; [done|]. intros (g & e & _ & _ & He & _).
    by apply elem_of_nil in He.
  - apply ConfigSpec.rangeComments_false.
Qed.

Lemma prefixOf_empty s : prefixOf "" s.
Proof. by exists s. Qed.

(** Scope grows with the include list and shrinks with the exclude
    list: a package in scope stays in scope when entries are added to
    the include list or removed from the exclude list. *)
Theorem IsPkgInScope_monotone c1 c2 pkg :
  includePkgs c1 ⊆ includePkgs c2 ->
  excludePkgs c2 ⊆ excludePkgs c1 ->
  IsPkgInScope c1 pkg = true -> IsPkgInScope c2 pkg = true.
Proof.
  intros Hinc Hexc. destruct pkg as [pkg|]; [|done].
  rewrite !IsPkgInScope_Some_true.
  intros [(i & Hi & Hp) Hno]. split.
  - exists i. split; [by apply Hinc | done].
  - intros (e & He & Hpe). apply Hno. exists e.
    split; [by apply Hexc | done].
Qed.

Lemma IsPkgInScope_monotone_witness :
  let c1 := set_includePkgs ["mod/a"]
              (set_excludePkgs ["mod/a/internal"; "mod/a/gen"]
                 (configOf true true 1 false false "" "" "")) in
  let c2 := set_includePkgs ["mod/b"; "mod/a"]
              (set_excludePkgs ["mod/a/gen"] c1) in
  let pkg := Some {| types.path := "mod/a/pkg"; types.name := "pkg" |} in
  IsPkgInScope c1 pkg = true /\ IsPkgInScope c2 pkg = true.
Proof.
  intros c1 c2 pkg.
  assert (H1 : IsPkgInScope c1 pkg = true) by reflexivity.
  split; [exact H1|].
  apply (IsPkgInScope_monotone c1 c2 pkg); [| |exact H1].
  - intros x [->|[]%elem_of_nil]%elem_of_cons. right. left.
  - intros x [->|[]%elem_of_nil]%elem_of_cons. right. left.
Defined.

(** Exclusion is by text, not by path segment, and it is inherited:
    every path that extends an exclude entry is out of scope, whatever
    the include list, so the entry mod/a also excludes mod/ab. *)
Theorem IsPkgInScope_excludes_every_extension c exclude rest name :
  exclude ∈ excludePkgs c ->
  IsPkgInScope c
    (Some {| types.path := exclude +:+ rest; types.name := name |})
  = false.
Proof.
  intros He. apply Bool.not_true_iff_false.
  intros [_ Hno]%IsPkgInScope_Some_true. apply Hno.
  exists exclude. split; [done|]. by exists rest.
Qed.

Lemma IsPkgInScope_excludes_every_extension_witness :
  let c := set_includePkgs ["mod"]
             (set_excludePkgs ["mod/a"]
                (configOf true true 1 false false "" "" "")) in
  "mod/a" ∈ excludePkgs c
  /\ IsPkgInScope c
       (Some {| types.path := "mod/a" +:+ "b"; types.name := "ab" |})
     = false.
Proof.
  intros c.
  assert (He : "mod/a" ∈ excludePkgs c) by left.
  split; [exact He|].
  exact (IsPkgInScope_excludes_every_extension c "mod/a" "b" "ab" He).
Defined.

(** The order of the entries and their repetition do not matter,
    although the loop returns at the first include that matches: two
    configurations whose include lists have the same entries, and
    whose exclude lists have the same entries, put the same packages in
    scope. *)
Theorem IsPkgInScope_order_irrelevant c1 c2 pkg :
  (forall x, x ∈ includePkgs c1 <-> x ∈ includePkgs c2) ->
  (forall x, x ∈ excludePkgs c1 <-> x ∈ excludePkgs c2) ->
  IsPkgInScope c1 pkg = IsPkgInScope c2 pkg.
Proof.
  intros Hinc Hexc. destruct pkg as [pkg|]; [|done].
  apply Bool.eq_iff_eq_true. rewrite !IsPkgInScope_Some_true.
  split; intros [(i & Hi & Hp) Hno]; (split;
    [ exists i; split; [by apply Hinc | done]
    | intros (e & He & Hpe); apply Hno; exists e;
      split; [by apply Hexc | done] ]).
Qed.

Lemma IsPkgInScope_order_irrelevant_witness :
  let c0 := configOf true true 1 false false "" "" "" in
  let c1 := set_includePkgs ["mod/a"; "mod/b"]
              (set_excludePkgs ["mod/a/x"; "mod/b"] c0) in
  let c2 := set_includePkgs ["mod/b"; "mod/a"; "mod/b"]
              (set_excludePkgs ["mod/b"; "mod/a/x"] c0) in
  let pkg := Some {| types.path := "mod/b/y"; types.name := "y" |} in
  IsPkgInScope c1 pkg = IsPkgInScope c2 pkg.
Proof.
  intros c0 c1 c2 pkg.
  apply (IsPkgInScope_order_irrelevant c1 c2 pkg); intros x; simpl;
    rewrite !elem_of_cons, !elem_of_nil; tauto.
Defined.

(** *** Files *)

Lemma rangeComments_filter DocContains namePos comments excludes :
  rangeComments DocContains namePos comments excludes
  = rangeComments DocContains namePos
      (filter (fun g => ast.CommentGroup_Pos g <= namePos) comments)
      excludes.
Proof.
  induction comments as [|g rest IH]; [done|].
  destruct (decide (ast.CommentGroup_Pos g <= namePos)) as [Hle|Hgt].
  - rewrite filter_cons_True by done. simpl. by rewrite IH.
  - rewrite filter_cons_False by done. simpl.
    destruct (Z.gtb_spec (ast.CommentGroup_Pos g) namePos); [done | lia].
Qed.

(** Only what comes before the package name counts: removing from a
    file every comment group that starts after the package name does
    not change the verdict. *)
Theorem IsFileInScope_ignores_later_comments DocContains c file :
  IsFileInScope DocContains c file
  = IsFileInScope DocContains c
      {| ast.Name := ast.Name file;
         ast.Comments :=
           filter (fun g => ast.CommentGroup_Pos g
                            <= ast.Ident_Pos (ast.Name file))
                  (ast.Comments file) |}.
Proof.
  unfold IsFileInScope.
  destruct (List.length (excludeFileDocStrings c) =? 0)%nat; [done|].
  apply rangeComments_filter.
Qed.

(** A shorter list of exclude docstrings keeps files in scope: a file
    in scope under a list is in scope under every list with fewer
    entries (in any order). *)
Theorem IsFileInScope_antitone DocContains c1 c2 file :
  excludeFileDocStrings c1 ⊆ excludeFileDocStrings c2 ->
  IsFileInScope DocContains c2 file = true ->
  IsFileInScope DocContains c1 file = true.
Proof.
  intros Hsub H2. apply Bool.not_false_iff_true. intros H1.
  apply IsFileInScope_false in H1 as (g & e & Hg & Hpos & He & Hd).
  assert (IsFileInScope DocContains c2 file = false); [|congruence].
  apply IsFileInScope_false. exists g, e. repeat split; try done.
  by apply Hsub.
Qed.

Lemma IsFileInScope_antitone_witness :
  let DocContains (g : ast.CommentGroup) (s : string) :=
    String.eqb (ast.Text (ast.List_first g)) s in
  let c0 := configOf true true 1 false false "" "" "" in
  let c1 := set_excludeFileDocStrings ["@generated"] c0 in
  let c2 := set_excludeFileDocStrings ["DO NOT EDIT"; "@generated"] c0 in
  let file :=
    {| ast.Name := {| ast.NamePos := 40; ast.IdentName := "p" |};
       ast.Comments :=
         [ {| ast.List_first := {| ast.Slash := 1; ast.Text := "// doc" |};
              ast.List_rest := [] |} ] |} in
  IsFileInScope DocContains c2 file = true
  /\ IsFileInScope DocContains c1 file = true.
Proof.
  intros DocContains c0 c1 c2 file.
  assert (H2 : IsFileInScope DocContains c2 file = true) by reflexivity.
  split; [exact H2|].
  apply (IsFileInScope_antitone DocContains c1 c2 file); [|exact H2].
  intros x [->|[]%elem_of_nil]%elem_of_cons. right. left.
Defined.

(** *** What [run] makes of the list flags *)

(** The three lists are the comma-separated pieces of their flags:
    joined again with commas, each list gives the value of its flag,
    and no entry contains a comma. *)
Theorem run_lists_are_the_pieces arguments pass :
  passOf arguments = Some pass ->
  let flags := analysis.Flags (analysis.PassAnalyzer pass) in
  exists conf,
    run pass = Some (Some conf, None)
    /\ valueOf flags IncludePkgsFlag
       = Some (flag.stringValue (String.concat "," (includePkgs conf)))
    /\ valueOf flags ExcludePkgsFlag
       = Some (flag.stringValue (String.concat "," (excludePkgs conf)))
    /\ valueOf flags ExcludeFileDocStringsFlag
       = Some (flag.stringValue
                 (String.concat "," (excludeFileDocStrings conf)))
    /\ Forall (fun entry => ","%char ∉ String.list_ascii_of_string entry)
         (includePkgs conf ++ excludePkgs conf
          ++ excludeFileDocStrings conf).
Proof.
  intros Hpass flags.
  destruct (ConfigSpec.passOf_registered _ _ Hpass)
    as (_ & b1 & b2 & i & b3 & b4 & s1 & s2 & s3
        & H1 & H2 & H3 & H4 & H5 & H6 & H7 & H8).
  exists (configOf b1 b2 i b3 b4 s1 s2 s3).
  split; [by apply ConfigSpec.run_registered|].
  unfold configOf. simpl. fold flags in H6, H7, H8. rewrite H6, H7, H8.
  destruct (String.eqb_spec s1 "") as [->|_],
    (String.eqb_spec s2 "") as [->|_],
    (String.eqb_spec s3 "") as [->|_];
    rewrite ?concat_Split; (repeat split; [done..|]);
    rewrite ?Forall_app; repeat split;
    first [ apply Split_no_sep
          | apply Forall_nil_2
          | repeat constructor; apply not_elem_of_nil ].
Qed.

Lemma run_lists_are_the_pieces_witness :
  exists pass,
    passOf [(IncludePkgsFlag, flag.stringValue "mod/a,mod/b")] = Some pass
    /\ exists conf,
      run pass = Some (Some conf, None)
      /\ valueOf (analysis.Flags (analysis.PassAnalyzer pass))
           IncludePkgsFlag
         = Some (flag.stringValue (String.concat "," (includePkgs conf)))
      /\ valueOf (analysis.Flags (analysis.PassAnalyzer pass))
           ExcludePkgsFlag
         = Some (flag.stringValue (String.concat "," (excludePkgs conf)))
      /\ valueOf (analysis.Flags (analysis.PassAnalyzer pass))
           ExcludeFileDocStringsFlag
         = Some (flag.stringValue
                   (String.concat "," (excludeFileDocStrings conf)))
      /\ Forall
           (fun entry => ","%char ∉ String.list_ascii_of_string entry)
           (includePkgs conf ++ excludePkgs conf
            ++ excludeFileDocStrings conf).
Proof.
  eexists. split; [reflexivity|].
  apply (run_lists_are_the_pieces
           [(IncludePkgsFlag, flag.stringValue "mod/a,mod/b")]).
  reflexivity.
Defined.

(** [run] never returns an empty include list: an include-pkgs flag
    that is empty leaves the catch-all prefix in place, and a flag that
    is not empty has at least one piece. *)
Theorem run_include_list_never_empty arguments pass :
  passOf arguments = Some pass ->
  exists conf, run pass = Some (Some conf, None) /\ includePkgs conf <> [].
Proof.
  intros Hpass.
  destruct (ConfigSpec.passOf_registered _ _ Hpass)
    as (_ & b1 & b2 & i & b3 & b4 & s1 & s2 & s3
        & H1 & H2 & H3 & H4 & H5 & H6 & H7 & H8).
  exists (configOf b1 b2 i b3 b4 s1 s2 s3).
  split; [by apply ConfigSpec.run_registered|].
  unfold configOf. simpl.
  destruct (String.eqb s1 ""); [done | apply Split_nonempty].
Qed.

Lemma run_include_list_never_empty_witness :
  exists pass,
    passOf [(IncludePkgsFlag, flag.stringValue "")] = Some pass
    /\ exists conf,
      run pass = Some (Some conf, None) /\ includePkgs conf <> [].
Proof.
  eexists. split; [reflexivity|].
  apply (run_include_list_never_empty
           [(IncludePkgsFlag, flag.stringValue "")]).
  reflexivity.
Defined.

Lemma append_comma_not_empty s : String.eqb (s +:+ ",") "" = false.
Proof. by destruct s. Qed.

(** A trailing comma in exclude-pkgs empties the scope: the last piece
    of the flag is the empty prefix, which excludes every package. *)
Theorem exclude_trailing_comma_excludes_everything arguments s pass :
  passOf (arguments ++ [(ExcludePkgsFlag, flag.stringValue (s +:+ ","))])
  = Some pass ->
  exists conf,
    run pass = Some (Some conf, None)
    /\ forall pkg, IsPkgInScope conf pkg = false.
Proof.
  intros Hpass.
  destruct (ConfigSpec.passOf_registered _ _ Hpass)
    as (Hparse & b1 & b2 & i & b3 & b4 & s1 & s2 & s3
        & H1 & H2 & H3 & H4 & H5 & H6 & H7 & H8).
  apply Parse_last in Hparse. rewrite Hparse in H7. injection H7 as <-.
  exists (configOf b1 b2 i b3 b4 s1 (s +:+ ",") s3).
  split; [by apply ConfigSpec.run_registered|].
  intros [pkg|]; [|done].
  apply Bool.not_true_iff_false. intros [_ Hno]%IsPkgInScope_Some_true.
  apply Hno. exists "". split; [|apply prefixOf_empty].
  unfold configOf. simpl. rewrite append_comma_not_empty.
  apply Split_trailing_sep.
Qed.

Lemma exclude_trailing_comma_excludes_everything_witness :
  exists pass,
    passOf ([(IncludePkgsFlag, flag.stringValue "mod/a")]
            ++ [(ExcludePkgsFlag,
                 flag.stringValue ("mod/a/internal" +:+ ","))])
    = Some pass
    /\ exists conf,
      run pass = Some (Some conf, None)
      /\ forall pkg, IsPkgInScope conf pkg = false.
Proof.
  eexists. split; [reflexivity|].
  apply (exclude_trailing_comma_excludes_everything
           [(IncludePkgsFlag, flag.stringValue "mod/a")] "mod/a/internal").
  reflexivity.
Defined.

(** A trailing comma in include-pkgs includes everything: the last
    piece of the flag is the empty prefix, so a package is in scope
    exactly when no exclude entry is a prefix of its path. *)
Theorem include_trailing_comma_includes_everything arguments s pass :
  passOf (arguments ++ [(IncludePkgsFlag, flag.stringValue (s +:+ ","))])
  = Some pass ->
  exists conf,
    run pass = Some (Some conf, None)
    /\ forall pkg,
         IsPkgInScope conf (Some pkg) = true <->
         ~ (exists exclude,
               exclude ∈ excludePkgs conf
               /\ prefixOf exclude (types.Path pkg)).
Proof.
  intros Hpass.
  destruct (ConfigSpec.passOf_registered _ _ Hpass)
    as (Hparse & b1 & b2 & i & b3 & b4 & s1 & s2 & s3
        & H1 & H2 & H3 & H4 & H5 & H6 & H7 & H8).
  apply Parse_last in Hparse. rewrite Hparse in H6. injection H6 as <-.
  exists (configOf b1 b2 i b3 b4 (s +:+ ",") s2 s3).
  split; [by apply ConfigSpec.run_registered|].
  intros pkg. rewrite IsPkgInScope_Some_true. split; [by intros [_ ?]|].
  intros Hno. split; [|done].
  exists "". split; [|apply prefixOf_empty].
  unfold configOf. simpl. rewrite append_comma_not_empty.
  apply Split_trailing_sep.
Qed.

Lemma include_trailing_comma_includes_everything_witness :
  exists pass,
    passOf ([] ++ [(IncludePkgsFlag, flag.stringValue ("mod/a" +:+ ","))])
    = Some pass
    /\ exists conf,
      run pass = Some (Some conf, None)
      /\ forall pkg,
           IsPkgInScope conf (Some pkg) = true <->
           ~ (exists exclude,
                 exclude ∈ excludePkgs conf
                 /\ prefixOf exclude (types.Path pkg)).
Proof.
  eexists. split; [reflexivity|].
  apply (include_trailing_comma_includes_everything [] "mod/a").
  reflexivity.
Defined.

(** By default no file is filtered: when the command line does not
    provide exclude-file-docstrings, the list of exclude docstrings is
    empty and every file is in scope, whatever its comments. *)
Theorem default_scope_is_every_file arguments pass :
  passOf arguments = Some pass ->
  ExcludeFileDocStringsFlag ∉ arguments.*1 ->
  exists conf,
    run pass = Some (Some conf, None)
    /\ excludeFileDocStrings conf = []
    /\ forall DocContains file, IsFileInScope DocContains conf file = true.
Proof.
  intros Hpass Hnot.
  destruct (ConfigSpec.passOf_registered _ _ Hpass)
    as (Hparse & b1 & b2 & i & b3 & b4 & s1 & s2 & s3
        & H1 & H2 & H3 & H4 & H5 & H6 & H7 & H8).
  assert (s3 = "") as ->.
  { rewrite (Parse_untouched _ _ _ _ Hparse Hnot) in H8.
    destruct ConfigSpec.newFlagSet_defaults
      as (_ & _ & _ & _ & _ & _ & _ & Hdef).
    rewrite Hdef in H8. by injection H8. }
  exists (configOf b1 b2 i b3 b4 s1 s2 "").
  split; [by apply ConfigSpec.run_registered|]. done.
Qed.

Lemma default_scope_is_every_file_witness :
  exists pass,
    passOf [(ExcludePkgsFlag, flag.stringValue "vendor")] = Some pass
    /\ exists conf,
      run pass = Some (Some conf, None)
      /\ excludeFileDocStrings conf = []
      /\ forall DocContains file,
           IsFileInScope DocContains conf file = true.
Proof.
  eexists. split; [reflexivity|].
  apply (default_scope_is_every_file
           [(ExcludePkgsFlag, flag.stringValue "vendor")]);
    [reflexivity|].
  intros [[=]|[]%elem_of_nil]%elem_of_cons.
Defined.

(** A knob keeps its default when its own flag is not on the command
    line, whatever else is: the pretty-print and grouping toggles stay
    on, the timeout stays 1 and the experimental features stay off. *)
Theorem run_keeps_defaults_of_absent_flags arguments pass :
  passOf arguments = Some pass ->
  exists conf,
    run pass = Some (Some conf, None)
    /\ forall name v,
         (name, v) ∈ knobs conf ->
         name ∉ arguments.*1 ->
         (name, v) ∈ knobs (configOf true true 1 false false "" "" "").
Proof.
  intros Hpass.
  destruct (ConfigSpec.run_passOf _ _ Hpass)
    as (b1 & b2 & i & b3 & b4 & s1 & s2 & s3 & Hrun & Hknobs).
  apply ConfigSpec.passOf_registered in Hpass as [Hparse _].
  eexists. split; [exact Hrun|].
  intros name v Hin Hnot. pose proof (Hknobs _ _ Hin) as Hv.
  rewrite (Parse_untouched _ _ _ _ Hparse Hnot) in Hv.
  destruct ConfigSpec.newFlagSet_defaults
    as (D1 & D2 & D3 & D4 & D5 & _).
  unfold knobs, configOf in Hin |- *. simpl in Hin |- *.
  repeat (apply elem_of_cons in Hin as [[= -> ->]|Hin];
          [ first [ rewrite D1 in Hv | rewrite D2 in Hv | rewrite D3 in Hv
                  | rewrite D4 in Hv | rewrite D5 in Hv ];
            injection Hv as Hv; rewrite <- ?Hv;
            rewrite !elem_of_cons; tauto |]).
  by apply elem_of_nil in Hin.
Qed.

Lemma run_keeps_defaults_of_absent_flags_witness :
  exists pass,
    passOf [(PrettyPrintFlag, flag.boolValue false)] = Some pass
    /\ exists conf,
      run pass = Some (Some conf, None)
      /\ forall name v,
           (name, v) ∈ knobs conf ->
           name ∉ [(PrettyPrintFlag, flag.boolValue false)].*1 ->
           (name, v) ∈ knobs (configOf true true 1 false false "" "" "").
Proof.
  eexists. split; [reflexivity|].
  apply (run_keeps_defaults_of_absent_flags
           [(PrettyPrintFlag, flag.boolValue false)]).
  reflexivity.
Defined.

End ConfigMore.
